(** * SSX server: the sign-in pipeline of [packages/ssx-server/src/server.ts]

    A shallow embedding of the [SSXServer] class: [login], [resolveEns],
    [log] and [logout].  The class is asynchronous TypeScript; every call
    that can throw or return a rejected promise is modelled by an explicit
    completion ([Normal] / [Abrupt]), and the observable side effects
    ([console.error], the metrics call of [log], [EventEmitter.emit]) are
    collected in a trace, in program order.

    The packages the class imports ([siwe], [ethers], [@spruceid/ssx-core],
    [@spruceid/ssx-gnosis-extension]) are not part of this file's source;
    their functions are fields of the record [World], so that every theorem
    about [login] holds for all behaviours of those packages. *)

From Stdlib Require Import String Ascii List ZArith Bool Lia.
From Stdlib Require Import DecimalString DecimalPos DecimalZ.
Import ListNotations.

Local Open Scope string_scope.
Local Open Scope list_scope.

(** ** Data model *)

Definition Address := string.
Definition Signature := string.

(** Modelled from the spec: [SiweError] is declared in [siwe]; these are
    the error kinds of the spec's taxonomy, carried in the [error] field
    of a verification response. *)
Inductive SiweError : Type :=
| MalformedMessage
| NonceMismatch
| Expired
| InvalidSignature
| Timeout
| IdentityResolutionFailed
| SinkUnavailable.

(** A thrown JavaScript value ([any]): a [SiweError], or an [Error] with
    its message. *)
Inductive Thrown : Type :=
| ThrownSiwe (e : SiweError)
| ThrownError (message : string).

(** The completion of a call: a returned value (a fulfilled promise once
    awaited) or a thrown one (a rejected promise once awaited). *)
Inductive Completion (A : Type) : Type :=
| Normal (a : A)
| Abrupt (e : Thrown).

Arguments Normal {A} a.
Arguments Abrupt {A} e.

(** Modelled from the spec: [SiweMessage] is declared in [siwe]; the
    fields are those of the spec's sign-in message (address, chain
    identifier, issued-at, expiration, statement, resources, nonce).
    Timestamps are instants in milliseconds. *)
Record SiweMessage : Type := mkSiweMessage {
  address : Address;
  chainId : Z;
  issuedAt : Z;
  expirationTime : option Z;
  statement : option string;
  resources : list string;
  nonce : string
}.

(** [Partial<SiweMessage>]: every field may be absent. *)
Record PartialSiweMessage : Type := mkPartialSiweMessage {
  p_address : option Address;
  p_chainId : option Z;
  p_issuedAt : option Z;
  p_expirationTime : option Z;
  p_statement : option string;
  p_resources : option (list string);
  p_nonce : option string
}.

(** The first argument of [login]: [Partial<SiweMessage> | string]. *)
Inductive SiweInput : Type :=
| SiweString (raw : string)
| SiweObject (fields : PartialSiweMessage).

(** [SiweResponse]: what [SiweMessage.verify] resolves with. *)
Record SiweResponse : Type := mkSiweResponse {
  r_success : bool;
  r_error : option SiweError;
  r_data : SiweMessage
}.

(** Modelled from the spec: [SSXEnsResolveOptions] and [SSXEnsData] are
    declared in [@spruceid/ssx-core]; the options say which attributes to
    fetch, the data holds the display name and the avatar reference, each
    of which may be absent. *)
Record SSXEnsResolveOptions : Type := mkEnsOptions {
  opt_domain : bool;
  opt_avatar : bool
}.

Record SSXEnsData : Type := mkEnsData {
  ens_domain : option string;
  ens_avatarUrl : option string
}.

(** The fourth argument of [login]: [boolean | SSXEnsResolveOptions]. *)
Inductive ResolveEnsArg : Type :=
| ResolveFlag (b : bool)
| ResolveOpts (o : SSXEnsResolveOptions).

(** JavaScript truthiness of that argument: an object is truthy. *)
Definition truthy (r : ResolveEnsArg) : bool :=
  match r with
  | ResolveFlag b => b
  | ResolveOpts _ => true
  end.

(** [SSXEventLogTypes]; this class only uses [LOGIN]. *)
Inductive SSXEventLogTypes : Type :=
| LOGIN
| OtherEventType (name : string).

Record EventContent : Type := mkEventContent {
  c_signature : Signature;
  c_siwe : SiweInput;
  isGnosis : bool
}.

(** [SSXLogFields]: the audit event. *)
Record SSXLogFields : Type := mkLogFields {
  userId : string;
  ev_type : SSXEventLogTypes;
  content : EventContent
}.

(** The [session] field of the result of [login].  [s_ens] is [None] when
    the JavaScript value is [undefined]. *)
Record SessionData : Type := mkSessionData {
  s_siwe : SiweMessage;
  s_signature : Signature;
  s_daoLogin : bool;
  s_ens : option SSXEnsData
}.

(** The result of [login].  [error] is [None] for [undefined], and
    [session] is [None] for [null]. *)
Record LoginResult : Type := mkLoginResult {
  success : bool;
  error : option SiweError;
  session : option SessionData
}.

(** A JSON-RPC provider ([this.provider]); it stays [undefined] when the
    configuration names no RPC endpoint. *)
Inductive Provider : Type :=
| NoProvider
| RpcProvider (endpoint : string).

(** Modelled from the spec: the fallback capability handed to the
    verifier, [verifyOnChain(address, digest, signature) -> bool]. *)
Definition FallbackVerifier : Type := Address -> string -> Signature -> bool.

Record VerifyParams : Type := mkVerifyParams {
  vp_signature : Signature;
  vp_nonce : string
}.

Record VerifyOpts : Type := mkVerifyOpts {
  verificationFallback : option FallbackVerifier;
  vo_provider : Provider
}.

(** ** The imported packages and the scheduler *)

Record World : Type := mkWorld {
  (** [new SiweMessage(siwe)] of [siwe]: parses, or throws. *)
  SiweMessage_new : SiweInput -> Completion SiweMessage;
  (** [SiweMessage.verify(params, opts)] of [siwe]: a promise. *)
  SiweMessage_verify :
    SiweMessage -> VerifyParams -> VerifyOpts -> Completion SiweResponse;
  (** [SiweMessage.prepareMessage()] of [siwe]: the signing payload. *)
  prepareMessage : SiweMessage -> string;
  (** [utils.verifyMessage(message, signature)] of [ethers]: the
      recovered address, or a throw on a signature it cannot process. *)
  utils_verifyMessage : string -> Signature -> Completion Address;
  (** [SiweGnosisVerify] of [@spruceid/ssx-gnosis-extension]. *)
  SiweGnosisVerify : FallbackVerifier;
  (** [ssxResolveEns(provider, address, opts)] of [@spruceid/ssx-core]. *)
  ssxResolveEns :
    Provider -> Address -> option SSXEnsResolveOptions -> Completion SSXEnsData;
  (** [ssxLog(api, apiKey, data)] of [@spruceid/ssx-core]. *)
  ssxLog : option string -> SSXLogFields -> Completion bool;
  (** Scheduling: when both promises given to [Promise.all] reject,
      whether the identity lookup rejects before the verification. *)
  ens_settles_first : bool
}.

(** The receiver [this]: the provider, the metrics key of the
    configuration, and the listeners registered on the [EventEmitter]
    (their joint behaviour on an emitted event: [Some e] when one of
    them throws [e]). *)
Record SSXServer : Type := mkSSXServer {
  provider : Provider;
  apiKey : option string;
  listeners : SSXEventLogTypes -> SSXLogFields -> option Thrown
}.

(** ** Effects *)

Inductive Effect : Type :=
| ConsoleError (e : Thrown)
| LogCall (data : SSXLogFields)
| EmitCall (type : SSXEventLogTypes) (data : SSXLogFields).

(** A computation: the trace of its effects and its completion. *)
Definition M (A : Type) : Type := (list Effect * Completion A)%type.

Definition effects {A} (m : M A) : list Effect := fst m.
Definition completion {A} (m : M A) : Completion A := snd m.

Definition ret {A} (a : A) : M A := ([], Normal a).

Definition throw {A} (e : Thrown) : M A := ([], Abrupt e).

Definition bind {A B} (m : M A) (k : A -> M B) : M B :=
  match m with
  | (t, Normal a) => let (t', r) := k a in (t ++ t', r)
  | (t, Abrupt e) => (t, Abrupt e)
  end.

(** [try { m } catch (error) { h error }]. *)
Definition try_catch {A} (m : M A) (h : Thrown -> M A) : M A :=
  match m with
  | (t, Normal a) => (t, Normal a)
  | (t, Abrupt e) => let (t', r) := h e in (t ++ t', r)
  end.

(** A synchronous call, or [await] of a promise. *)
Definition await {A} (p : Completion A) : M A := ([], p).

(** A promise that is started and never awaited: its effects happen, its
    completion is dropped. *)
Definition fire_and_forget {A} (m : M A) : M unit := (effects m, Normal tt).

Definition console_error (e : Thrown) : M unit := ([ConsoleError e], Normal tt).

Declare Scope js_scope.
Delimit Scope js_scope with js.
Notation "x <- m ;; k" := (bind m (fun x => k))
  (at level 61, m at next level, right associativity) : js_scope.
Notation "m ;; k" := (bind m (fun _ => k))
  (at level 61, right associativity) : js_scope.
Local Open Scope js_scope.

(** [Promise.all([p, q])] where [q] is present only when it was pushed:
    fulfilled with both values ([undefined], here [None], for the absent
    one), rejected with the reason of the promise that rejects first. *)
Definition Promise_all {A B} (second_first : bool)
    (p : Completion A) (q : option (Completion B)) : Completion (A * option B) :=
  match p, q with
  | Normal a, None => Normal (a, None)
  | Normal a, Some (Normal b) => Normal (a, Some b)
  | Normal _, Some (Abrupt e) => Abrupt e
  | Abrupt e, None => Abrupt e
  | Abrupt e, Some (Normal _) => Abrupt e
  | Abrupt e1, Some (Abrupt e2) => Abrupt (if second_first then e2 else e1)
  end.

(** The decimal text of an integer.  A template literal prints a number
    this way when it is a safe integer (below 2^53 in magnitude, see
    [safe_integer]); a larger number need not be an integer that a
    JavaScript number holds, and from 1e21 on it is printed with an
    exponent, which this function does not do. *)
Definition number_toString (n : Z) : string :=
  NilZero.string_of_int (Z.to_int n).

(** ** The class *)

Section Methods.

Variable w : World.
Variable this : SSXServer.

(** [log]: registers an event to the API. *)
Definition log (data : SSXLogFields) : M bool :=
  ([LogCall data], ssxLog w (apiKey this) data).

(** [emit] of [EventEmitter]: runs the listeners synchronously. *)
Definition emit (type : SSXEventLogTypes) (data : SSXLogFields) : M unit :=
  ([EmitCall type data],
   match listeners this type data with
   | Some e => Abrupt e
   | None => Normal tt
   end).

(** [resolveEns]. *)
Definition resolveEns (address : Address)
    (resolveEnsOpts : option SSXEnsResolveOptions) : Completion SSXEnsData :=
  ssxResolveEns w (provider this) address resolveEnsOpts.

(** [this.resolveEns], under a name that the parameter [resolveEns] of
    [login] does not hide. *)
Definition this_resolveEns := resolveEns.

(** [login]. *)
Definition login (siwe : SiweInput) (signature : Signature) (daoLogin : bool)
    (resolveEns : ResolveEnsArg) (nonce : string) : M LoginResult :=
  siweMessage <- await (SiweMessage_new w siwe) ;;
  let siweMessageVerifyPromise :=
    SiweMessage_verify w siweMessage
      {| vp_signature := signature; vp_nonce := nonce |}
      {| verificationFallback :=
           if daoLogin then Some (SiweGnosisVerify w) else None;
         vo_provider := provider this |} in
  let ensPromise :=
    if truthy resolveEns then
      let resolveEnsOpts :=
        match resolveEns with
        | ResolveFlag _ => None
        | ResolveOpts o => Some o
        end in
      Some (this_resolveEns (address siweMessage) resolveEnsOpts)
    else None in
  settled <- try_catch
    (await (Promise_all (ens_settles_first w)
              siweMessageVerifyPromise ensPromise))
    (fun error => console_error error ;; throw error) ;;
  let siweMessageVerify := fst settled in
  let ens := snd settled in
  let success := r_success siweMessageVerify in
  let error := r_error siweMessageVerify in
  let data := r_data siweMessageVerify in
  smartContractWalletOrCustomMethod <- try_catch
    (recovered <- await (utils_verifyMessage w (prepareMessage w data) signature) ;;
     ret (negb (recovered =? address data)))
    (fun error => console_error error ;; throw error) ;;
  let event :=
    {| userId := "did:pkh:eip155:" ++ number_toString (chainId data)
                   ++ ":" ++ address data;
       ev_type := LOGIN;
       content := {| c_signature := signature;
                     c_siwe := siwe;
                     isGnosis := daoLogin && smartContractWalletOrCustomMethod |} |} in
  fire_and_forget (log event) ;;
  emit (ev_type event) event ;;
  session_siwe <- await (SiweMessage_new w siwe) ;;
  ret {| success := success;
         error := error;
         session := Some {| s_siwe := session_siwe;
                            s_signature := signature;
                            s_daoLogin := daoLogin;
                            s_ens := ens |} |}.

End Methods.

(** ** [logout] *)

(** What a promise of type [Promise<any>] may resolve with. *)
Inductive JsValue : Type :=
| JsUndefined
| JsBoolean (b : bool)
| JsOther (text : string).

(** [logout]: [return destroySession?.()]. *)
Definition logout (destroySession : option (unit -> Completion JsValue))
    : M JsValue :=
  match destroySession with
  | None => ret JsUndefined
  | Some destroy => await (destroy tt)
  end.

(** ** The verifier of the specification *)

Definition failed (e : SiweError) (message : SiweMessage) : SiweResponse :=
  {| r_success := false; r_error := Some e; r_data := message |}.

Definition verified (message : SiweMessage) : SiweResponse :=
  {| r_success := true; r_error := None; r_data := message |}.

(** The message has an expiration and the current time is past it. *)
Definition expired (now : Z) (message : SiweMessage) : bool :=
  match expirationTime message with
  | Some t => (t <? now)%Z
  | None => false
  end.

(** Direct recovery: the address recovered from the signature over the
    canonical payload is the claimed one. *)
Definition direct_recovery (recover : string -> Signature -> Completion Address)
    (payload : string) (signature : Signature) (claimed : Address) : bool :=
  match recover payload signature with
  | Normal a => a =? claimed
  | Abrupt _ => false
  end.

(** Modelled from the spec: the body of [SiweMessage.verify], which lives
    in [siwe].  The five steps of the spec's verifier: nonce, expiration,
    direct recovery, the fallback capability when one is given, and
    [InvalidSignature] otherwise.  [canonicalize] and [recover] are the
    payload and recovery functions, [digest] hashes the payload for the
    on-chain predicate, [now] is the current time. *)
Definition verify (now : Z) (canonicalize : SiweMessage -> string)
    (recover : string -> Signature -> Completion Address)
    (digest : string -> string)
    (message : SiweMessage) (params : VerifyParams) (opts : VerifyOpts)
    : Completion SiweResponse :=
  if negb (nonce message =? vp_nonce params) then
    Normal (failed NonceMismatch message)
  else if expired now message then
    Normal (failed Expired message)
  else if direct_recovery recover (canonicalize message)
            (vp_signature params) (address message) then
    Normal (verified message)
  else
    match verificationFallback opts with
    | Some verifyOnChain =>
        if verifyOnChain (address message) (digest (canonicalize message))
             (vp_signature params)
        then Normal (verified message)
        else Normal (failed InvalidSignature message)
    | None => Normal (failed InvalidSignature message)
    end.

(** The same world with another fallback verifier, and with another
    metrics sink. *)
Definition with_fallback (g : FallbackVerifier) (w : World) : World :=
  {| SiweMessage_new := SiweMessage_new w;
     SiweMessage_verify := SiweMessage_verify w;
     prepareMessage := prepareMessage w;
     utils_verifyMessage := utils_verifyMessage w;
     SiweGnosisVerify := g;
     ssxResolveEns := ssxResolveEns w;
     ssxLog := ssxLog w;
     ens_settles_first := ens_settles_first w |}.


(** ** Names for the steps of [login] *)

(** The two promises that [login] joins. *)
Definition verifyPromise (w : World) (this : SSXServer) (m : SiweMessage)
    (signature : Signature) (daoLogin : bool) (nonce : string)
    : Completion SiweResponse :=
  SiweMessage_verify w m
    {| vp_signature := signature; vp_nonce := nonce |}
    {| verificationFallback :=
         if daoLogin then Some (SiweGnosisVerify w) else None;
       vo_provider := provider this |}.

Definition ensOptions (r : ResolveEnsArg) : option SSXEnsResolveOptions :=
  match r with
  | ResolveFlag _ => None
  | ResolveOpts o => Some o
  end.

Definition ensPromise (w : World) (this : SSXServer) (m : SiweMessage)
    (r : ResolveEnsArg) : option (Completion SSXEnsData) :=
  if truthy r then Some (resolveEns w this (address m) (ensOptions r))
  else None.

Definition joined (w : World) (this : SSXServer) (m : SiweMessage)
    (signature : Signature) (daoLogin : bool) (r : ResolveEnsArg)
    (nonce : string) : Completion (SiweResponse * option SSXEnsData) :=
  Promise_all (ens_settles_first w)
    (verifyPromise w this m signature daoLogin nonce) (ensPromise w this m r).

(** The recomputed direct recovery over the verified data. *)
Definition recomputed (w : World) (data : SiweMessage) (signature : Signature)
    : Completion Address :=
  utils_verifyMessage w (prepareMessage w data) signature.

(** The identifier of the subject of the audit event. *)
Definition did_pkh (data : SiweMessage) : string :=
  "did:pkh:eip155:" ++ number_toString (chainId data) ++ ":" ++ address data.

(** The audit event that [login] builds. *)
Definition loginEvent (siwe : SiweInput) (signature : Signature)
    (daoLogin : bool) (data : SiweMessage) (recovered : Address)
    : SSXLogFields :=
  {| userId := did_pkh data;
     ev_type := LOGIN;
     content := {| c_signature := signature;
                   c_siwe := siwe;
                   isGnosis := daoLogin && negb (recovered =? address data) |} |}.

(** The result that [login] returns. *)
Definition loginResult (resp : SiweResponse) (m : SiweMessage)
    (signature : Signature) (daoLogin : bool) (ens : option SSXEnsData)
    : LoginResult :=
  {| success := r_success resp;
     error := r_error resp;
     session := Some {| s_siwe := m;
                        s_signature := signature;
                        s_daoLogin := daoLogin;
                        s_ens := ens |} |}.

(** The audit events of a trace: the events handed to [log]. *)
Fixpoint audit_events (t : list Effect) : list SSXLogFields :=
  match t with
  | [] => []
  | LogCall data :: t' => data :: audit_events t'
  | _ :: t' => audit_events t'
  end.

(** The identity lookup as [login] awaits it: absent ([undefined]) when
    it was not requested. *)
Definition ensSettled (w : World) (this : SSXServer) (m : SiweMessage)
    (r : ResolveEnsArg) : Completion (option SSXEnsData) :=
  match ensPromise w this m r with
  | None => Normal None
  | Some (Normal d) => Normal (Some d)
  | Some (Abrupt e) => Abrupt e
  end.

(** Where [login] stops by throwing, with the effects of the run up to
    there: at the parse (no effect), at the joined promises and at the
    recomputed direct recovery (the error written to the console), or in
    a listener (the event logged and emitted). *)
Inductive login_fault (w : World) (this : SSXServer) (siwe : SiweInput)
    (signature : Signature) (daoLogin : bool) (r : ResolveEnsArg)
    (nonce : string) : list Effect -> Thrown -> Prop :=
| fault_parse e :
    SiweMessage_new w siwe = Abrupt e ->
    login_fault w this siwe signature daoLogin r nonce [] e
| fault_promise m e :
    SiweMessage_new w siwe = Normal m ->
    joined w this m signature daoLogin r nonce = Abrupt e ->
    login_fault w this siwe signature daoLogin r nonce [ConsoleError e] e
| fault_recovery m resp ens e :
    SiweMessage_new w siwe = Normal m ->
    joined w this m signature daoLogin r nonce = Normal (resp, ens) ->
    recomputed w (r_data resp) signature = Abrupt e ->
    login_fault w this siwe signature daoLogin r nonce [ConsoleError e] e
| fault_listener m resp ens a e :
    SiweMessage_new w siwe = Normal m ->
    joined w this m signature daoLogin r nonce = Normal (resp, ens) ->
    recomputed w (r_data resp) signature = Normal a ->
    listeners this LOGIN (loginEvent siwe signature daoLogin (r_data resp) a)
      = Some e ->
    login_fault w this siwe signature daoLogin r nonce
      [LogCall (loginEvent siwe signature daoLogin (r_data resp) a);
       EmitCall LOGIN (loginEvent siwe signature daoLogin (r_data resp) a)]
      e.


(** The identity lookup does not reject before the verification does:
    the verification settles first, or the lookup was not started or is
    fulfilled. *)
Definition verification_settles_first (w : World) (this : SSXServer)
    (m : SiweMessage) (r : ResolveEnsArg) : Prop :=
  ens_settles_first w = false \/
  forall e, ensPromise w this m r <> Some (Abrupt e).

(** The [success] field of a returned result, if [login] returned. *)
Definition success_of (c : Completion LoginResult) : option bool :=
  match c with
  | Normal res => Some (success res)
  | Abrupt _ => None
  end.

(** ** Sample worlds

    Concrete behaviours of the imported packages, used to run [login]. *)

Module Sample.

Definition alice : Address := "0xAAA".
Definition bob : Address := "0xB0B".
(** A contract account, owned by [bob]. *)
Definition wallet : Address := "0xC0DE".

(** A structured sign-in message of [a] for the nonce [n], chain 1. *)
Definition input (a : Address) (n : string) : SiweInput :=
  SiweObject {| p_address := Some a;
                p_chainId := Some 1%Z;
                p_issuedAt := Some 0%Z;
                p_expirationTime := None;
                p_statement := None;
                p_resources := None;
                p_nonce := Some n |}.

Definition message (a : Address) (n : string) : SiweMessage :=
  {| address := a; chainId := 1; issuedAt := 0; expirationTime := None;
     statement := None; resources := []; nonce := n |}.

(** A parser that wants address, chain, issued-at and nonce, and that
    takes no raw text. *)
Definition parse (i : SiweInput) : Completion SiweMessage :=
  match i with
  | SiweString _ => Abrupt (ThrownSiwe MalformedMessage)
  | SiweObject f =>
      match p_address f, p_chainId f, p_issuedAt f, p_nonce f with
      | Some a, Some c, Some t, Some n =>
          Normal {| address := a; chainId := c; issuedAt := t;
                    expirationTime := p_expirationTime f;
                    statement := p_statement f;
                    resources := match p_resources f with
                                 | Some l => l
                                 | None => []
                                 end;
                    nonce := n |}
      | _, _, _, _ => Abrupt (ThrownSiwe MalformedMessage)
      end
  end.

Definition payload (m : SiweMessage) : string :=
  address m ++ " wants you to sign in. Nonce: " ++ nonce m.

(** Recovery: a signature names the key that made it; any other text
    is a signature that recovery cannot process. *)
Definition recover (_ : string) (s : Signature) : Completion Address :=
  if s =? "signed-by-alice" then Normal alice
  else if s =? "signed-by-bob" then Normal bob
  else Abrupt (ThrownError "invalid signature string").

Definition digest (s : string) : string := "keccak256:" ++ s.

(** The on-chain predicate of [wallet]: it accepts its owner's
    signature and its own contract signature. *)
Definition onchain : FallbackVerifier :=
  fun a _ s =>
    (a =? wallet) && ((s =? "signed-by-bob") || (s =? "contract-signature")).

(** Three verifiers: the verifier of the specification; one that
    rejects its promise where that one resolves a failure; one that runs
    the on-chain predicate whatever the options say. *)
Definition resolving := verify 0 payload recover digest.

Definition rejecting (m : SiweMessage) (p : VerifyParams) (o : VerifyOpts)
    : Completion SiweResponse :=
  match resolving m p o with
  | Normal r =>
      match r_error r with
      | Some e => Abrupt (ThrownSiwe e)
      | None => Normal r
      end
  | Abrupt e => Abrupt e
  end.

Definition with_contract_check (m : SiweMessage) (p : VerifyParams)
    (o : VerifyOpts) : Completion SiweResponse :=
  resolving m p {| verificationFallback := Some onchain;
                   vo_provider := vo_provider o |}.

Definition alice_eth : SSXEnsData :=
  {| ens_domain := Some "alice.eth"; ens_avatarUrl := None |}.

Definition ens_up (_ : Provider) (_ : Address)
    (_ : option SSXEnsResolveOptions) : Completion SSXEnsData :=
  Normal alice_eth.

Definition ens_down (_ : Provider) (_ : Address)
    (_ : option SSXEnsResolveOptions) : Completion SSXEnsData :=
  Abrupt (ThrownError "could not detect network").

Definition world
    (verifier : SiweMessage -> VerifyParams -> VerifyOpts -> Completion SiweResponse)
    (resolver : Provider -> Address -> option SSXEnsResolveOptions
                -> Completion SSXEnsData) : World :=
  {| SiweMessage_new := parse;
     SiweMessage_verify := verifier;
     prepareMessage := payload;
     utils_verifyMessage := recover;
     SiweGnosisVerify := onchain;
     ssxResolveEns := resolver;
     ssxLog := fun _ _ => Normal true;
     ens_settles_first := false |}.

Definition server : SSXServer :=
  {| provider := RpcProvider "mainnet";
     apiKey := None;
     listeners := fun _ _ => None |}.

End Sample.

(** The same world with another identity resolver. *)
Definition with_resolver
    (resolver : Provider -> Address -> option SSXEnsResolveOptions
                -> Completion SSXEnsData) (w : World) : World :=
  {| SiweMessage_new := SiweMessage_new w;
     SiweMessage_verify := SiweMessage_verify w;
     prepareMessage := prepareMessage w;
     utils_verifyMessage := utils_verifyMessage w;
     SiweGnosisVerify := SiweGnosisVerify w;
     ssxResolveEns := resolver;
     ssxLog := ssxLog w;
     ens_settles_first := ens_settles_first w |}.

(** The events handed to [emit], with their types. *)
Fixpoint emitted_events (t : list Effect)
    : list (SSXEventLogTypes * SSXLogFields) :=
  match t with
  | [] => []
  | EmitCall type data :: t' => (type, data) :: emitted_events t'
  | _ :: t' => emitted_events t'
  end.

(** The text has no colon. *)
Fixpoint no_colon (s : string) : bool :=
  match s with
  | EmptyString => true
  | String c s' => negb (Ascii.eqb c ":"%char) && no_colon s'
  end.

(** ** The constructor and the session configuration *)

(** A key of a configuration object: absent, present with the value
    [undefined], or present with a value.  [Object.assign] copies the
    last two. *)
Inductive Key (A : Type) : Type :=
| KeyAbsent
| KeyUndefined
| KeyValue (a : A).

Arguments KeyAbsent {A}.
Arguments KeyUndefined {A}.
Arguments KeyValue {A} a.

(** Reading a key: [undefined] ([None]) unless it holds a value. *)
Definition read_key {A} (k : Key A) : option A :=
  match k with
  | KeyValue a => Some a
  | _ => None
  end.

(** The values of session options: an object is the list of its
    properties, read from the front. *)
#[local] Unset Elimination Schemes.
Inductive JsVal : Type :=
| JUndefined
| JBool (b : bool)
| JNumber (n : Z)
| JString (s : string)
| JObject (props : list (string * JsVal))
| JStore (name : string).

#[local] Set Elimination Schemes.

Definition JsObject : Type := list (string * JsVal).

(** The own property [k] of an object, if it has one. *)
Fixpoint obj_get (k : string) (o : JsObject) : option JsVal :=
  match o with
  | [] => None
  | (k', v) :: o' => if k' =? k then Some v else obj_get k o'
  end.

(** [o.k]: [undefined] when the object has no such property. *)
Definition obj_prop (k : string) (o : JsObject) : JsVal :=
  match obj_get k o with
  | Some v => v
  | None => JUndefined
  end.

(** [{...a, ...b}]: the properties of [b] come before, and so hide,
    those of [a]. *)
Definition spread (a b : JsObject) : JsObject := b ++ a.

Definition of_string_option (s : option string) : JsVal :=
  match s with
  | Some t => JString t
  | None => JUndefined
  end.

Definition of_bool_option (b : option bool) : JsVal :=
  match b with
  | Some c => JBool c
  | None => JUndefined
  end.

(** The [express-session] module, which a store factory receives. *)
Inductive SessionModule : Type := express_session_module.

(** The middleware that [session(options)] returns. *)
Inductive RequestHandler : Type := Middleware (id : string).

(** The configuration, as far as the class reads it: [providers.rpc],
    [providers.metrics.{service, apiKey}],
    [providers.sessionConfig.{store, sessionOptions}], [signingKey] and
    [useSecureCookies].  The inner objects are only read through [?.], so
    an absent key and [undefined] are one ([None]) there. *)
Record RpcConfig : Type := mkRpcConfig {
  rpc_service : string;
  rpc_apiKey : option string;
  rpc_network : option string
}.

Record SSXMetricsConfig : Type := mkMetricsConfig {
  service : option string;
  metrics_apiKey : option string
}.

Record SSXSessionConfig : Type := mkSessionConfig {
  store : option (SessionModule -> Completion JsVal);
  sessionOptions : option JsObject
}.

Record SSXProviders : Type := mkProviders {
  rpc : option RpcConfig;
  metrics : option SSXMetricsConfig;
  sessionConfig : option SSXSessionConfig
}.

Record SSXServerConfig : Type := mkServerConfig {
  signingKey : Key string;
  providers : Key SSXProviders;
  useSecureCookies : Key bool
}.

(** [{}]. *)
Definition emptyProviders : SSXProviders :=
  {| rpc := None; metrics := None; sessionConfig := None |}.

Definition emptyConfig : SSXServerConfig :=
  {| signingKey := KeyAbsent; providers := KeyAbsent;
     useSecureCookies := KeyAbsent |}.

(** [config.providers?.metrics], [config.providers?.rpc] and
    [config.providers?.sessionConfig]. *)
Definition metrics_of (c : SSXServerConfig) : option SSXMetricsConfig :=
  match read_key (providers c) with
  | Some ps => metrics ps
  | None => None
  end.

Definition rpc_of (c : SSXServerConfig) : option RpcConfig :=
  match read_key (providers c) with
  | Some ps => rpc ps
  | None => None
  end.

Definition sessionConfig_of (c : SSXServerConfig) : option SSXSessionConfig :=
  match read_key (providers c) with
  | Some ps => sessionConfig ps
  | None => None
  end.

(** [config.providers?.metrics?.apiKey] and [...?.service]. *)
Definition apiKey_of (c : SSXServerConfig) : option string :=
  match metrics_of c with
  | Some m => metrics_apiKey m
  | None => None
  end.

Definition service_of (c : SSXServerConfig) : option string :=
  match metrics_of c with
  | Some m => service m
  | None => None
  end.

(** What the constructor takes from its environment:
    [process.env.NODE_ENV], [session(options)] of [express-session] and
    [getProvider(rpc)] of [@spruceid/ssx-core]. *)
Record Platform : Type := mkPlatform {
  NODE_ENV : option string;
  express_session : JsObject -> Completion RequestHandler;
  getProvider : RpcConfig -> Completion Provider
}.

Definition with_getProvider (g : RpcConfig -> Completion Provider)
    (p : Platform) : Platform :=
  {| NODE_ENV := NODE_ENV p;
     express_session := express_session p;
     getProvider := g |}.

(** [process.env.NODE_ENV === 'production']. *)
Definition production (p : Platform) : bool :=
  match NODE_ENV p with
  | Some env => env =? "production"
  | None => false
  end.

(** [_setDefaults]. *)
Definition _setDefaults (p : Platform) : SSXServerConfig :=
  {| signingKey := KeyAbsent;
     providers := KeyValue emptyProviders;
     useSecureCookies := KeyValue (production p) |}.

(** [Object.assign(target, {...source})], key by key: a key that the
    source has, also with the value [undefined], replaces the target's. *)
Definition assign_key {A} (target source : Key A) : Key A :=
  match source with
  | KeyAbsent => target
  | _ => source
  end.

Definition Object_assign (target source : SSXServerConfig) : SSXServerConfig :=
  {| signingKey := assign_key (signingKey target) (signingKey source);
     providers := assign_key (providers target) (providers source);
     useSecureCookies :=
       assign_key (useSecureCookies target) (useSecureCookies source) |}.

(** [getDefaultExpressSessionConfig], on [this._config]. *)
Definition getDefaultExpressSessionConfig (_config : SSXServerConfig)
    : JsObject :=
  [ ("name", JString "ssx-session-storage");
    ("secret", of_string_option (read_key (signingKey _config)));
    ("resave", JBool false);
    ("saveUninitialized", JBool false);
    ("cookie",
     JObject [ ("httpOnly", JBool true);
               ("secure",
                of_bool_option (read_key (useSecureCookies _config))) ]) ].

(** [...this._config.providers?.sessionConfig?.sessionOptions]: nothing
    when it is [undefined]. *)
Definition sessionOptions_of (_config : SSXServerConfig) : JsObject :=
  match sessionConfig_of _config with
  | Some sc =>
      match sessionOptions sc with
      | Some o => o
      | None => []
      end
  | None => []
  end.

Definition store_of (_config : SSXServerConfig)
    : option (SessionModule -> Completion JsVal) :=
  match sessionConfig_of _config with
  | Some sc => store sc
  | None => None
  end.

(** [getExpressSessionConfig], on [this._config]. *)
Definition getExpressSessionConfig (_config : SSXServerConfig) : M JsObject :=
  let defaults := getDefaultExpressSessionConfig _config in
  let options := sessionOptions_of _config in
  storePart <-
    match store_of _config with
    | Some factory =>
        made <- await (factory express_session_module) ;;
        ret [("store", made)]
    | None => ret []
    end ;;
  ret (spread (spread defaults options) storePart).

(** The client that [axios.create] is asked for. *)
Record AxiosInstance : Type := mkAxiosInstance {
  baseURL : string;
  Authorization : string;
  Content_Type : string
}.

Module Instance.

(** The fields of a constructed [SSXServer]. *)
Record t : Type := mk {
  _config : SSXServerConfig;
  _api : AxiosInstance;
  provider : Provider;
  session : RequestHandler
}.

End Instance.

(** The text of a template literal's hole. *)
Definition template_string (s : option string) : string :=
  match s with
  | Some t => t
  | None => "undefined"
  end.

(** The constructor; [None] is a call without argument. *)
Definition new_SSXServer (p : Platform) (argument : option SSXServerConfig)
    : M Instance.t :=
  let config :=
    match argument with
    | Some c => c
    | None => emptyConfig
    end in
  let _config := Object_assign (_setDefaults p) config in
  options <- getExpressSessionConfig _config ;;
  session <- await (express_session p options) ;;
  let baseURL :=
    match service_of _config with
    | Some srv => if srv =? "ssx" then "https://api.ssx.id" else ""
    | None => ""
    end in
  let _api :=
    {| baseURL := baseURL;
       Authorization := "Bearer " ++ template_string (apiKey_of config);
       Content_Type := "application/json" |} in
  provider <-
    match rpc_of config with
    | Some r => await (getProvider p r)
    | None => ret NoProvider
    end ;;
  ret {| Instance._config := _config;
         Instance._api := _api;
         Instance.provider := provider;
         Instance.session := session |}.

(** The receiver of [login] and [log] for a constructed server and the
    listeners registered on it. *)
Definition receiver (i : Instance.t)
    (ls : SSXEventLogTypes -> SSXLogFields -> option Thrown) : SSXServer :=
  {| provider := Instance.provider i;
     apiKey := apiKey_of (Instance._config i);
     listeners := ls |}.

(** The integers that a JavaScript number holds exactly, and that a
    template literal prints digit by digit. *)
Definition safe_integer (n : Z) : Prop := (Z.abs n < 2 ^ 53)%Z.

(** A sample platform and sample configurations. *)
Module SampleConfig.

Definition platform : Platform :=
  {| NODE_ENV := Some "production";
     express_session := fun _ => Normal (Middleware "ssx-session");
     getProvider := fun r => Normal (RpcProvider (rpc_service r)) |}.

(** Metrics on [ssx] with a key, session options that name the cookie
    and give it a lifetime only, no RPC provider. *)
Definition config : SSXServerConfig :=
  {| signingKey := KeyValue "secret-key";
     providers :=
       KeyValue
         {| rpc := None;
            metrics := Some {| service := Some "ssx";
                               metrics_apiKey := Some "key-1" |};
            sessionConfig :=
              Some {| store := Some (fun _ => Normal (JStore "redis"));
                      sessionOptions :=
                        Some [ ("name", JString "sid");
                               ("store", JStore "memory");
                               ("cookie",
                                JObject [("maxAge", JNumber 3600000)]) ] |} |};
     useSecureCookies := KeyAbsent |}.

(** Only a signing key. *)
Definition minimal : SSXServerConfig :=
  {| signingKey := KeyValue "secret-key";
     providers := KeyAbsent;
     useSecureCookies := KeyAbsent |}.

(** The server that the constructor builds from [config]. *)
Definition constructed : Instance.t :=
  {| Instance._config := Object_assign (_setDefaults platform) config;
     Instance._api :=
       {| baseURL := "https://api.ssx.id";
          Authorization := "Bearer key-1";
          Content_Type := "application/json" |};
     Instance.provider := NoProvider;
     Instance.session := Middleware "ssx-session" |}.

(** A server without listeners. *)
Definition no_listeners (_ : SSXEventLogTypes) (_ : SSXLogFields)
    : option Thrown := None.

End SampleConfig.

(** ** The control flow of [login] *)

Section Flow.

Variable w : World.
Variable this : SSXServer.
Variables (siwe : SiweInput) (signature : Signature) (daoLogin : bool).
Variables (resolveEnsArg : ResolveEnsArg) (nonce : string).

(** [login] step by step: each of the four places where it can stop,
    and the trace and result when it reaches its [return]. *)
Lemma login_unfold :
  login w this siwe signature daoLogin resolveEnsArg nonce =
  match SiweMessage_new w siwe with
  | Abrupt e => ([], Abrupt e)
  | Normal m =>
    match joined w this m signature daoLogin resolveEnsArg nonce with
    | Abrupt e => ([ConsoleError e], Abrupt e)
    | Normal (resp, ens) =>
      match recomputed w (r_data resp) signature with
      | Abrupt e => ([ConsoleError e], Abrupt e)
      | Normal a =>
        let ev := loginEvent siwe signature daoLogin (r_data resp) a in
        ([LogCall ev; EmitCall LOGIN ev],
         match listeners this LOGIN ev with
         | Some e => Abrupt e
         | None => Normal (loginResult resp m signature daoLogin ens)
         end)
      end
    end
  end.
Proof.
  unfold login, joined, verifyPromise, ensPromise, ensOptions,
    recomputed, this_resolveEns, await, bind, try_catch, console_error,
    throw, ret, fire_and_forget, emit, log, effects.
  destruct (SiweMessage_new w siwe) as [m | e]; [| reflexivity].
  cbn.
  match goal with
  | |- context [Promise_all ?b ?p ?q] =>
      destruct (Promise_all b p q) as [[resp ens] | e]
  end; [| reflexivity].
  cbn.
  destruct (utils_verifyMessage w (prepareMessage w (r_data resp)) signature)
    as [a | e]; [| reflexivity].
  cbn.
  destruct (listeners this LOGIN _); reflexivity.
Qed.

(** What is known when [login] returns. *)
Lemma login_normal_inv (r : LoginResult) :
  completion (login w this siwe signature daoLogin resolveEnsArg nonce)
    = Normal r ->
  exists m resp ens a,
    SiweMessage_new w siwe = Normal m /\
    joined w this m signature daoLogin resolveEnsArg nonce
      = Normal (resp, ens) /\
    recomputed w (r_data resp) signature = Normal a /\
    listeners this LOGIN (loginEvent siwe signature daoLogin (r_data resp) a)
      = None /\
    effects (login w this siwe signature daoLogin resolveEnsArg nonce)
      = [LogCall (loginEvent siwe signature daoLogin (r_data resp) a);
         EmitCall LOGIN (loginEvent siwe signature daoLogin (r_data resp) a)] /\
    r = loginResult resp m signature daoLogin ens.
Proof.
  rewrite login_unfold.
  destruct (SiweMessage_new w siwe) as [m | e]; [| discriminate].
  destruct (joined w this m signature daoLogin resolveEnsArg nonce)
    as [[resp ens] | e] eqn:Hj; [| discriminate].
  destruct (recomputed w (r_data resp) signature) as [a | e] eqn:Hr;
    [| discriminate].
  cbn.
  destruct (listeners this LOGIN _) eqn:Hl; [discriminate |].
  intros H; injection H as <-.
  exists m, resp, ens, a. repeat split; assumption.
Qed.

(** What is known about an event that [login] handed to [log]. *)
Lemma login_logged_inv (ev : SSXLogFields) :
  In (LogCall ev)
     (effects (login w this siwe signature daoLogin resolveEnsArg nonce)) ->
  exists m resp ens a,
    SiweMessage_new w siwe = Normal m /\
    joined w this m signature daoLogin resolveEnsArg nonce
      = Normal (resp, ens) /\
    recomputed w (r_data resp) signature = Normal a /\
    ev = loginEvent siwe signature daoLogin (r_data resp) a.
Proof.
  rewrite login_unfold.
  destruct (SiweMessage_new w siwe) as [m | e]; [| intros []].
  destruct (joined w this m signature daoLogin resolveEnsArg nonce)
    as [[resp ens] | e] eqn:Hj.
  - destruct (recomputed w (r_data resp) signature) as [a | e] eqn:Hr.
    + cbn. intros [H | [H | []]]; [| discriminate].
      injection H as <-. exists m, resp, ens, a. repeat split; assumption.
    + cbn. intros [H | []]. discriminate.
  - cbn. intros [H | []]. discriminate.
Qed.

End Flow.


(** [Promise.all] fulfils only when each promise does. *)
Lemma Promise_all_normal_inv {A B} (b : bool) (p : Completion A)
    (q : option (Completion B)) (a : A) (ob : option B) :
  Promise_all b p q = Normal (a, ob) ->
  p = Normal a /\
  match q with
  | None => ob = None
  | Some c => exists d, c = Normal d /\ ob = Some d
  end.
Proof.
  destruct p as [a' | e], q as [[d | e'] |]; cbn; intros H;
    try discriminate; injection H as <- <-; split; eauto.
Qed.

(** A fulfilled first promise leaves the join to the second. *)
Lemma Promise_all_first_normal {A B} (b : bool) (a : A)
    (q : option (Completion B)) :
  Promise_all b (Normal a) q =
  match q with
  | None => Normal (a, None)
  | Some (Normal d) => Normal (a, Some d)
  | Some (Abrupt e) => Abrupt e
  end.
Proof. destruct q as [[d | e] |]; reflexivity. Qed.

Lemma joined_normal_inv (w : World) (this : SSXServer) (m : SiweMessage)
    (signature : Signature) (daoLogin : bool) (r : ResolveEnsArg)
    (nonce : string) (resp : SiweResponse) (ens : option SSXEnsData) :
  joined w this m signature daoLogin r nonce = Normal (resp, ens) ->
  verifyPromise w this m signature daoLogin nonce = Normal resp /\
  ensSettled w this m r = Normal ens.
Proof.
  unfold joined, ensSettled. intros H.
  apply Promise_all_normal_inv in H as [Hv He]. split; [exact Hv |].
  destruct (ensPromise w this m r) as [c |].
  - destruct He as (d & -> & ->). reflexivity.
  - now subst.
Qed.

Lemma joined_verified (w : World) (this : SSXServer) (m : SiweMessage)
    (signature : Signature) (daoLogin : bool) (r : ResolveEnsArg)
    (nonce : string) (resp : SiweResponse) :
  verifyPromise w this m signature daoLogin nonce = Normal resp ->
  joined w this m signature daoLogin r nonce =
  match ensSettled w this m r with
  | Normal ens => Normal (resp, ens)
  | Abrupt e => Abrupt e
  end.
Proof.
  unfold joined, ensSettled. intros ->. rewrite Promise_all_first_normal.
  destruct (ensPromise w this m r) as [[d | e] |]; reflexivity.
Qed.

(** [login] runs to its [return] when the parse, the two promises, the
    recomputed recovery and the listeners all complete normally. *)
Lemma login_returns (w : World) (this : SSXServer) (siwe : SiweInput)
    (signature : Signature) (daoLogin : bool) (r : ResolveEnsArg)
    (expected : string) (m : SiweMessage) (resp : SiweResponse)
    (ens : option SSXEnsData) (a : Address) :
  SiweMessage_new w siwe = Normal m ->
  verifyPromise w this m signature daoLogin expected = Normal resp ->
  ensSettled w this m r = Normal ens ->
  recomputed w (r_data resp) signature = Normal a ->
  listeners this LOGIN (loginEvent siwe signature daoLogin (r_data resp) a)
    = None ->
  login w this siwe signature daoLogin r expected
  = ([LogCall (loginEvent siwe signature daoLogin (r_data resp) a);
      EmitCall LOGIN (loginEvent siwe signature daoLogin (r_data resp) a)],
     Normal (loginResult resp m signature daoLogin ens)).
Proof.
  intros Hm Hv He Hr Hl.
  rewrite login_unfold, Hm, (joined_verified _ _ _ _ _ _ _ _ Hv), He, Hr.
  cbn. now rewrite Hl.
Qed.

(** [login] throws the reason of the joined promises, once it is on the
    console. *)
Lemma login_promise_rejected (w : World) (this : SSXServer) (siwe : SiweInput)
    (signature : Signature) (daoLogin : bool) (r : ResolveEnsArg)
    (expected : string) (m : SiweMessage) (e : Thrown) :
  SiweMessage_new w siwe = Normal m ->
  joined w this m signature daoLogin r expected = Abrupt e ->
  login w this siwe signature daoLogin r expected
  = ([ConsoleError e], Abrupt e).
Proof.
  intros Hm Hj. now rewrite login_unfold, Hm, Hj.
Qed.

(** A verification that rejects, and that the lookup does not reject
    before, is the rejection of the joined promises. *)
Lemma joined_rejected (w : World) (this : SSXServer) (m : SiweMessage)
    (signature : Signature) (daoLogin : bool) (r : ResolveEnsArg)
    (expected : string) (e : Thrown) :
  verifyPromise w this m signature daoLogin expected = Abrupt e ->
  verification_settles_first w this m r ->
  joined w this m signature daoLogin r expected = Abrupt e.
Proof.
  unfold joined. intros -> [Hf | Hn].
  - rewrite Hf. now destruct (ensPromise w this m r) as [[d | e'] |].
  - destruct (ensPromise w this m r) as [[d | e'] |]; try reflexivity.
    now destruct (Hn e').
Qed.

(** ** The result of [login] *)

(** C1 (amended).  Whenever [login] returns a result, also one whose
    [success] is false, the verification promise was fulfilled, [success]
    and [error] are the fields of its response, and [session] is the
    complete record [{siwe, signature, daoLogin, ens}]: it is never
    [null].  (A login whose verification promise rejects returns no
    result at all.) *)
Theorem login_returns_full_session (w : World) (this : SSXServer)
    (siwe : SiweInput) (signature : Signature) (daoLogin : bool)
    (r : ResolveEnsArg) (expected : string) (res : LoginResult) :
  completion (login w this siwe signature daoLogin r expected) = Normal res ->
  exists m resp ens,
    SiweMessage_new w siwe = Normal m /\
    verifyPromise w this m signature daoLogin expected = Normal resp /\
    ensSettled w this m r = Normal ens /\
    success res = r_success resp /\
    error res = r_error resp /\
    session res = Some {| s_siwe := m;
                          s_signature := signature;
                          s_daoLogin := daoLogin;
                          s_ens := ens |}.
Proof.
  intros H.
  apply login_normal_inv in H as (m & resp & ens & a & Hm & Hj & _ & _ & _ & ->).
  apply joined_normal_inv in Hj as [Hv He].
  exists m, resp, ens. repeat split; assumption.
Qed.

(** C1, witness: a login with the wrong nonce, whose failure the verifier
    resolves. *)
Lemma login_returns_full_session_witness :
  exists m resp ens,
    SiweMessage_new (Sample.world Sample.resolving Sample.ens_up)
      (Sample.input Sample.alice "wrong") = Normal m /\
    verifyPromise (Sample.world Sample.resolving Sample.ens_up) Sample.server
      m "signed-by-alice" false "abc123" = Normal resp /\
    ensSettled (Sample.world Sample.resolving Sample.ens_up) Sample.server
      m (ResolveFlag false) = Normal ens /\
    false = r_success resp /\
    Some NonceMismatch = r_error resp /\
    Some {| s_siwe := Sample.message Sample.alice "wrong";
            s_signature := "signed-by-alice";
            s_daoLogin := false;
            s_ens := None |}
    = Some {| s_siwe := m;
              s_signature := "signed-by-alice";
              s_daoLogin := false;
              s_ens := ens |}.
Proof.
  apply (login_returns_full_session
           (Sample.world Sample.resolving Sample.ens_up) Sample.server
           (Sample.input Sample.alice "wrong") "signed-by-alice" false
           (ResolveFlag false) "abc123"
           {| success := false;
              error := Some NonceMismatch;
              session := Some {| s_siwe := Sample.message Sample.alice "wrong";
                                 s_signature := "signed-by-alice";
                                 s_daoLogin := false;
                                 s_ens := None |} |}).
  reflexivity.
Defined.

(** C1, counterexample: a failed login whose failure the verifier
    resolves returns a session next to [success = false]; one whose
    failure the verifier rejects returns no result. *)
Lemma login_failure_carries_session :
  completion
    (login (Sample.world Sample.resolving Sample.ens_up) Sample.server
       (Sample.input Sample.alice "wrong") "signed-by-alice" false
       (ResolveFlag false) "abc123")
  = Normal {| success := false;
              error := Some NonceMismatch;
              session := Some {| s_siwe := Sample.message Sample.alice "wrong";
                                 s_signature := "signed-by-alice";
                                 s_daoLogin := false;
                                 s_ens := None |} |}
  /\
  completion
    (login (Sample.world Sample.rejecting Sample.ens_up) Sample.server
       (Sample.input Sample.alice "wrong") "signed-by-alice" false
       (ResolveFlag false) "abc123")
  = Abrupt (ThrownSiwe NonceMismatch).
Proof. split; reflexivity. Qed.

(** ** The classification in the audit event *)

(** C2 (amended).  The [isGnosis] flag of the audit event is
    [daoLogin && !(recovered === data.address)], where [recovered] is the
    direct recovery recomputed over the verified data; so with
    [daoLogin = false] the event reports [isGnosis = false], however the
    verification succeeded. *)
Theorem login_isGnosis_needs_daoLogin (w : World) (this : SSXServer)
    (siwe : SiweInput) (signature : Signature) (daoLogin : bool)
    (r : ResolveEnsArg) (expected : string) (ev : SSXLogFields) :
  In (LogCall ev) (effects (login w this siwe signature daoLogin r expected)) ->
  exists m resp a,
    SiweMessage_new w siwe = Normal m /\
    verifyPromise w this m signature daoLogin expected = Normal resp /\
    recomputed w (r_data resp) signature = Normal a /\
    isGnosis (content ev) = daoLogin && negb (a =? address (r_data resp)) /\
    (daoLogin = false -> isGnosis (content ev) = false).
Proof.
  intros H.
  apply login_logged_inv in H as (m & resp & ens & a & Hm & Hj & Hr & ->).
  apply joined_normal_inv in Hj as [Hv _].
  exists m, resp, a. repeat split; try assumption.
  cbn. intros ->. reflexivity.
Qed.

(** C2, witness: the owner of a contract account signs, with
    [daoLogin = true]. *)
Lemma login_isGnosis_needs_daoLogin_witness :
  exists m resp a,
    SiweMessage_new (Sample.world Sample.resolving Sample.ens_up)
      (Sample.input Sample.wallet "abc123") = Normal m /\
    verifyPromise (Sample.world Sample.resolving Sample.ens_up) Sample.server
      m "signed-by-bob" true "abc123" = Normal resp /\
    recomputed (Sample.world Sample.resolving Sample.ens_up) (r_data resp)
      "signed-by-bob" = Normal a /\
    isGnosis (content
      (loginEvent (Sample.input Sample.wallet "abc123") "signed-by-bob" true
         (Sample.message Sample.wallet "abc123") Sample.bob))
    = true && negb (a =? address (r_data resp)) /\
    (true = false ->
     isGnosis (content
       (loginEvent (Sample.input Sample.wallet "abc123") "signed-by-bob" true
          (Sample.message Sample.wallet "abc123") Sample.bob)) = false).
Proof.
  apply (login_isGnosis_needs_daoLogin
           (Sample.world Sample.resolving Sample.ens_up) Sample.server
           (Sample.input Sample.wallet "abc123") "signed-by-bob" true
           (ResolveFlag false) "abc123").
  left. reflexivity.
Defined.

(** C2, counterexample: [daoLogin] is false, direct recovery does not give
    the claimed address, the verifier accepts the signature through the
    contract's predicate, and the one audit event says [isGnosis = false]. *)
Lemma login_contract_wallet_without_daoLogin :
  direct_recovery Sample.recover
    (Sample.payload (Sample.message Sample.wallet "abc123"))
    "signed-by-bob" Sample.wallet = false
  /\
  success_of
    (completion
       (login (Sample.world Sample.with_contract_check Sample.ens_up)
          Sample.server (Sample.input Sample.wallet "abc123") "signed-by-bob"
          false (ResolveFlag false) "abc123")) = Some true
  /\
  map (fun ev => isGnosis (content ev))
    (audit_events
       (effects
          (login (Sample.world Sample.with_contract_check Sample.ens_up)
             Sample.server (Sample.input Sample.wallet "abc123")
             "signed-by-bob" false (ResolveFlag false) "abc123")))
  = [false].
Proof. repeat split; reflexivity. Qed.

(** ** Errors at the boundary of [login] *)

(** C3 (amended).  [login] throws exactly the faults of its four steps,
    and they pass the boundary of [login]: a throw of the parse, with no
    effect before it; a rejection of the joined promises and a throw of
    the recomputed direct recovery, each written to the console and then
    rethrown; a throw of a listener, after the event was logged and
    emitted.  Only a failure that the verifier reports in a fulfilled
    response is surfaced as the [error] field of a returned result. *)
Theorem login_throws_exactly_its_faults (w : World) (this : SSXServer)
    (siwe : SiweInput) (signature : Signature) (daoLogin : bool)
    (r : ResolveEnsArg) (expected : string) :
  (forall t e,
     login w this siwe signature daoLogin r expected = (t, Abrupt e)
     <-> login_fault w this siwe signature daoLogin r expected t e)
  /\
  (forall res,
     completion (login w this siwe signature daoLogin r expected) = Normal res ->
     exists m resp,
       SiweMessage_new w siwe = Normal m /\
       verifyPromise w this m signature daoLogin expected = Normal resp /\
       error res = r_error resp).
Proof.
  split.
  - intros t e. rewrite login_unfold. split.
    + destruct (SiweMessage_new w siwe) as [m | e0] eqn:Hm.
      * destruct (joined w this m signature daoLogin r expected)
          as [[resp ens] | e1] eqn:Hj.
        -- destruct (recomputed w (r_data resp) signature) as [a | e2] eqn:Hr.
           ++ cbn.
              destruct (listeners this LOGIN
                          (loginEvent siwe signature daoLogin (r_data resp) a))
                as [e3 |] eqn:Hl; [| discriminate].
              intros H; injection H as <- <-.
              eapply fault_listener; eassumption.
           ++ intros H; injection H as <- <-.
              eapply fault_recovery; eassumption.
        -- intros H; injection H as <- <-.
           eapply fault_promise; eassumption.
      * intros H; injection H as <- <-. now apply fault_parse.
    + intros [e0 Hm | m e0 Hm Hj | m resp ens e0 Hm Hj Hr
             | m resp ens a e0 Hm Hj Hr Hl].
      * now rewrite Hm.
      * now rewrite Hm, Hj.
      * now rewrite Hm, Hj, Hr.
      * rewrite Hm, Hj, Hr. cbn. now rewrite Hl.
  - intros res H.
    apply login_normal_inv in H as (m & resp & ens & a & Hm & Hj & _ & _ & _ & ->).
    apply joined_normal_inv in Hj as [Hv _].
    exists m, resp. repeat split; assumption.
Qed.

(** C3, counterexample: a text that does not parse makes [login] throw
    [MalformedMessage], and a verification that rejects makes it throw
    [InvalidSignature]; neither is a returned result with an [error]
    field. *)
Lemma login_throws_past_boundary :
  login (Sample.world Sample.resolving Sample.ens_up) Sample.server
    (SiweString "not a sign-in message") "signed-by-alice" false
    (ResolveFlag false) "abc123"
  = ([], Abrupt (ThrownSiwe MalformedMessage))
  /\
  login (Sample.world Sample.rejecting Sample.ens_up) Sample.server
    (Sample.input Sample.alice "abc123") "signed-by-bob" false
    (ResolveFlag false) "abc123"
  = ([ConsoleError (ThrownSiwe InvalidSignature)],
     Abrupt (ThrownSiwe InvalidSignature)).
Proof. split; reflexivity. Qed.

(** ** Identity resolution *)

(** C4 (amended).  [login] does not absorb the identity lookup.  For a
    login that asks for it and whose verification promise is fulfilled:
    when the lookup is fulfilled, with any data, a returned result has
    the verifier's [success] and that data as [session.ens]; when the
    lookup rejects, [login] logs the reason to the console and rejects
    with it. *)
Theorem login_identity_lookup_not_absorbed (w : World) (this : SSXServer)
    (siwe : SiweInput) (signature : Signature) (daoLogin : bool)
    (r : ResolveEnsArg) (expected : string) (m : SiweMessage)
    (resp : SiweResponse) :
  SiweMessage_new w siwe = Normal m ->
  truthy r = true ->
  verifyPromise w this m signature daoLogin expected = Normal resp ->
  (forall d res,
     resolveEns w this (address m) (ensOptions r) = Normal d ->
     completion (login w this siwe signature daoLogin r expected) = Normal res ->
     success res = r_success resp /\
     session res = Some {| s_siwe := m;
                           s_signature := signature;
                           s_daoLogin := daoLogin;
                           s_ens := Some d |})
  /\
  (forall e,
     resolveEns w this (address m) (ensOptions r) = Abrupt e ->
     login w this siwe signature daoLogin r expected
     = ([ConsoleError e], Abrupt e)).
Proof.
  intros Hm Ht Hv. split.
  - intros d res Hd H.
    apply login_normal_inv in H as (m' & resp' & ens & a & Hm' & Hj & _ & _ & _ & ->).
    rewrite Hm in Hm'. injection Hm' as <-.
    apply joined_normal_inv in Hj as [Hv' He].
    rewrite Hv in Hv'. injection Hv' as <-.
    unfold ensSettled, ensPromise in He. rewrite Ht, Hd in He.
    injection He as <-. split; reflexivity.
  - intros e He.
    rewrite login_unfold, Hm, (joined_verified _ _ _ _ _ _ _ _ Hv).
    unfold ensSettled, ensPromise. now rewrite Ht, He.
Qed.

(** C4, witness: the lookup is up, then down, for the same valid login. *)
Lemma login_identity_lookup_not_absorbed_witness :
  (forall d res,
     resolveEns (Sample.world Sample.resolving Sample.ens_down) Sample.server
       (address (Sample.message Sample.alice "abc123"))
       (ensOptions (ResolveFlag true)) = Normal d ->
     completion
       (login (Sample.world Sample.resolving Sample.ens_down) Sample.server
          (Sample.input Sample.alice "abc123") "signed-by-alice" false
          (ResolveFlag true) "abc123") = Normal res ->
     success res = r_success (verified (Sample.message Sample.alice "abc123")) /\
     session res = Some {| s_siwe := Sample.message Sample.alice "abc123";
                           s_signature := "signed-by-alice";
                           s_daoLogin := false;
                           s_ens := Some d |})
  /\
  (forall e,
     resolveEns (Sample.world Sample.resolving Sample.ens_down) Sample.server
       (address (Sample.message Sample.alice "abc123"))
       (ensOptions (ResolveFlag true)) = Abrupt e ->
     login (Sample.world Sample.resolving Sample.ens_down) Sample.server
       (Sample.input Sample.alice "abc123") "signed-by-alice" false
       (ResolveFlag true) "abc123"
     = ([ConsoleError e], Abrupt e)).
Proof.
  apply (login_identity_lookup_not_absorbed
           (Sample.world Sample.resolving Sample.ens_down) Sample.server
           (Sample.input Sample.alice "abc123") "signed-by-alice" false
           (ResolveFlag true) "abc123"
           (Sample.message Sample.alice "abc123")
           (verified (Sample.message Sample.alice "abc123")));
    reflexivity.
Defined.

(** C4, counterexample: the same valid login succeeds without the lookup
    and is rejected, with the lookup's error, when the lookup rejects. *)
Lemma login_fails_when_lookup_rejects :
  success_of
    (completion
       (login (Sample.world Sample.resolving Sample.ens_down) Sample.server
          (Sample.input Sample.alice "abc123") "signed-by-alice" false
          (ResolveFlag false) "abc123")) = Some true
  /\
  login (Sample.world Sample.resolving Sample.ens_down) Sample.server
    (Sample.input Sample.alice "abc123") "signed-by-alice" false
    (ResolveFlag true) "abc123"
  = ([ConsoleError (ThrownError "could not detect network")],
     Abrupt (ThrownError "could not detect network")).
Proof. split; reflexivity. Qed.

(** ** The audit event *)




(** ** The recomputed classification *)

(** C10.  Once the joined promises are fulfilled with a successful
    verification, [login] runs direct recovery again,
    [utils.verifyMessage(data.prepareMessage(), signature)], and
    classifies the login with its result; when that call throws, [login]
    logs the exception to the console and throws it, although the
    verification succeeded. *)
Theorem login_recomputation_throw_escapes (w : World) (this : SSXServer)
    (siwe : SiweInput) (signature : Signature) (daoLogin : bool)
    (r : ResolveEnsArg) (expected : string) (m : SiweMessage)
    (resp : SiweResponse) (ens : option SSXEnsData) :
  SiweMessage_new w siwe = Normal m ->
  joined w this m signature daoLogin r expected = Normal (resp, ens) ->
  r_success resp = true ->
  match utils_verifyMessage w (prepareMessage w (r_data resp)) signature with
  | Abrupt e =>
      login w this siwe signature daoLogin r expected
      = ([ConsoleError e], Abrupt e)
  | Normal a =>
      map (fun ev => isGnosis (content ev))
        (audit_events
           (effects (login w this siwe signature daoLogin r expected)))
      = [daoLogin && negb (a =? address (r_data resp))]
  end.
Proof.
  intros Hm Hj _. rewrite login_unfold, Hm, Hj. unfold recomputed.
  destruct (utils_verifyMessage w (prepareMessage w (r_data resp)) signature);
    reflexivity.
Qed.

(** C10, witness: a contract account whose signature the fallback accepts
    and direct recovery cannot process. *)
Lemma login_recomputation_throw_escapes_witness :
  login (Sample.world Sample.resolving Sample.ens_up) Sample.server
    (Sample.input Sample.wallet "abc123") "contract-signature" true
    (ResolveFlag true) "abc123"
  = ([ConsoleError (ThrownError "invalid signature string")],
     Abrupt (ThrownError "invalid signature string")).
Proof.
  apply (login_recomputation_throw_escapes
           (Sample.world Sample.resolving Sample.ens_up) Sample.server
           (Sample.input Sample.wallet "abc123") "contract-signature" true
           (ResolveFlag true) "abc123"
           (Sample.message Sample.wallet "abc123")
           (verified (Sample.message Sample.wallet "abc123"))
           (Some Sample.alice_eth));
    reflexivity.
Defined.

(** ** [login] and the verifier's answer *)





(** C5 (amended).  For the signer of a parsed message.  With
    [daoLogin = false] the fallback verifier is not handed to the
    verifier: [login] runs the same whatever [SiweGnosisVerify] is; and
    when the verifier rejects the signature with [InvalidSignature],
    [login] fails with [InvalidSignature]: it writes it to the console
    and throws it.  With [daoLogin = true], when the verification is
    fulfilled as successful and direct recovery returns an address other
    than the claimed one (it does not throw), [login] returns
    [success = true] and its audit event has [isGnosis = true]. *)
Theorem login_contract_account (w : World) (this : SSXServer)
    (siwe : SiweInput) (signature : Signature) (r : ResolveEnsArg)
    (expected : string) (m : SiweMessage) :
  SiweMessage_new w siwe = Normal m ->
  (forall g,
     login (with_fallback g w) this siwe signature false r expected
     = login w this siwe signature false r expected)
  /\
  (verifyPromise w this m signature false expected
     = Abrupt (ThrownSiwe InvalidSignature) ->
   verification_settles_first w this m r ->
   login w this siwe signature false r expected
   = ([ConsoleError (ThrownSiwe InvalidSignature)],
      Abrupt (ThrownSiwe InvalidSignature)))
  /\
  (forall resp ens a,
     verifyPromise w this m signature true expected = Normal resp ->
     r_success resp = true ->
     ensSettled w this m r = Normal ens ->
     recomputed w (r_data resp) signature = Normal a ->
     (a =? address (r_data resp)) = false ->
     listeners this LOGIN (loginEvent siwe signature true (r_data resp) a)
       = None ->
     login w this siwe signature true r expected
     = ([LogCall (loginEvent siwe signature true (r_data resp) a);
         EmitCall LOGIN (loginEvent siwe signature true (r_data resp) a)],
        Normal (loginResult resp m signature true ens))
     /\ success (loginResult resp m signature true ens) = true
     /\ isGnosis (content (loginEvent siwe signature true (r_data resp) a))
        = true).
Proof.
  intros Hm. split; [| split].
  - intros g.
    rewrite (login_unfold w), (login_unfold (with_fallback g w)). reflexivity.
  - intros Hv Hs.
    apply (login_promise_rejected _ _ _ _ _ _ _ m); [exact Hm |].
    now apply joined_rejected.
  - intros resp ens a Hv Hok He Hr Ha Hl.
    split; [| split].
    + now apply login_returns.
    + exact Hok.
    + cbn. now rewrite Ha.
Qed.

(** C5, witness: the contract account [wallet], signed for by its owner
    [bob], with a verifier that rejects its failures: rejected with
    [InvalidSignature] without [daoLogin], accepted through the fallback
    with it. *)
Lemma login_contract_account_witness :
  login (Sample.world Sample.rejecting Sample.ens_up) Sample.server
    (Sample.input Sample.wallet "abc123") "signed-by-bob" false
    (ResolveFlag false) "abc123"
  = ([ConsoleError (ThrownSiwe InvalidSignature)],
     Abrupt (ThrownSiwe InvalidSignature))
  /\
  (login (Sample.world Sample.rejecting Sample.ens_up) Sample.server
     (Sample.input Sample.wallet "abc123") "signed-by-bob" true
     (ResolveFlag false) "abc123"
   = ([LogCall (loginEvent (Sample.input Sample.wallet "abc123")
                  "signed-by-bob" true (Sample.message Sample.wallet "abc123")
                  Sample.bob);
       EmitCall LOGIN (loginEvent (Sample.input Sample.wallet "abc123")
                         "signed-by-bob" true
                         (Sample.message Sample.wallet "abc123") Sample.bob)],
      Normal (loginResult (verified (Sample.message Sample.wallet "abc123"))
                (Sample.message Sample.wallet "abc123") "signed-by-bob" true
                None))
   /\ success (loginResult (verified (Sample.message Sample.wallet "abc123"))
                (Sample.message Sample.wallet "abc123") "signed-by-bob" true
                None) = true
   /\ isGnosis (content (loginEvent (Sample.input Sample.wallet "abc123")
                           "signed-by-bob" true
                           (Sample.message Sample.wallet "abc123") Sample.bob))
      = true).
Proof.
  destruct (login_contract_account
              (Sample.world Sample.rejecting Sample.ens_up) Sample.server
              (Sample.input Sample.wallet "abc123") "signed-by-bob"
              (ResolveFlag false) "abc123"
              (Sample.message Sample.wallet "abc123") eq_refl)
    as (_ & Hfalse & Htrue).
  split.
  - apply Hfalse; [reflexivity | left; reflexivity].
  - apply (Htrue (verified (Sample.message Sample.wallet "abc123")) None
             Sample.bob); reflexivity.
Defined.

(** C5, counterexample: the contract account [wallet].  With
    [daoLogin = true], a signature that direct recovery cannot process
    (so it does not yield the claimed address) and that the on-chain
    predicate accepts: [login] throws instead of succeeding.  With
    [daoLogin = false] and a verifier that checks the contract's
    predicate by itself: direct recovery gives another address and
    [login] succeeds instead of failing with [InvalidSignature]. *)
Lemma login_contract_signature_throws :
  direct_recovery Sample.recover
    (Sample.payload (Sample.message Sample.wallet "abc123"))
    "contract-signature" Sample.wallet = false
  /\
  Sample.onchain Sample.wallet
    (Sample.digest (Sample.payload (Sample.message Sample.wallet "abc123")))
    "contract-signature" = true
  /\
  login (Sample.world Sample.rejecting Sample.ens_up)
    Sample.server (Sample.input Sample.wallet "abc123") "contract-signature"
    true (ResolveFlag false) "abc123"
  = ([ConsoleError (ThrownError "invalid signature string")],
     Abrupt (ThrownError "invalid signature string"))
  /\
  direct_recovery Sample.recover
    (Sample.payload (Sample.message Sample.wallet "abc123"))
    "signed-by-bob" Sample.wallet = false
  /\
  success_of
    (completion
       (login (Sample.world Sample.with_contract_check Sample.ens_up)
          Sample.server (Sample.input Sample.wallet "abc123") "signed-by-bob"
          false (ResolveFlag false) "abc123")) = Some true.
Proof. repeat split; reflexivity. Qed.

(** ** [logout] *)

(** C8.  [logout] without a destroy capability has no effect and resolves
    with [undefined], which is neither [true] nor [false]; with a
    capability, it completes as the capability's call does. *)
Theorem logout_without_destroy_is_undefined :
  logout None = ([], Normal JsUndefined)
  /\ forall destroy, logout (Some destroy) = ([], destroy tt).
Proof. split; [reflexivity | intros destroy; reflexivity]. Qed.

(** ** Further properties of [login] *)

(** X1.  [login] writes to the console only when it throws: an error on
    the console is the error that [login] throws, it is the only effect
    of that run, and no audit event was logged. *)
Theorem login_console_error_is_thrown (w : World) (this : SSXServer)
    (siwe : SiweInput) (signature : Signature) (daoLogin : bool)
    (r : ResolveEnsArg) (expected : string) (e : Thrown) :
  In (ConsoleError e) (effects (login w this siwe signature daoLogin r expected)) ->
  login w this siwe signature daoLogin r expected = ([ConsoleError e], Abrupt e).
Proof.
  rewrite login_unfold.
  destruct (SiweMessage_new w siwe) as [m | e0]; [| intros []].
  destruct (joined w this m signature daoLogin r expected) as [[resp ens] | e1].
  - destruct (recomputed w (r_data resp) signature) as [a | e2]; cbn.
    + intros [H | [H | []]]; discriminate.
    + intros [H | []]. now injection H as ->.
  - cbn. intros [H | []]. now injection H as ->.
Qed.

(** X1, witness: a verification that rejects. *)
Lemma login_console_error_is_thrown_witness :
  login (Sample.world Sample.rejecting Sample.ens_up) Sample.server
    (Sample.input Sample.alice "abc123") "signed-by-bob" false
    (ResolveFlag false) "abc123"
  = ([ConsoleError (ThrownSiwe InvalidSignature)],
     Abrupt (ThrownSiwe InvalidSignature)).
Proof.
  apply (login_console_error_is_thrown
           (Sample.world Sample.rejecting Sample.ens_up) Sample.server
           (Sample.input Sample.alice "abc123") "signed-by-bob" false
           (ResolveFlag false) "abc123" (ThrownSiwe InvalidSignature)).
  left. reflexivity.
Defined.

(** X2.  With a falsy [resolveEns] the identity lookup is not started:
    [login] runs the same whatever the resolver is, and the session it
    returns has [ens] [undefined] (the initial [{}] is overwritten by
    the missing second element of the joined values). *)
Theorem login_without_lookup (w : World) (this : SSXServer)
    (siwe : SiweInput) (signature : Signature) (daoLogin : bool)
    (r : ResolveEnsArg) (expected : string) :
  truthy r = false ->
  (forall resolver,
     login (with_resolver resolver w) this siwe signature daoLogin r expected
     = login w this siwe signature daoLogin r expected)
  /\
  (forall res,
     completion (login w this siwe signature daoLogin r expected) = Normal res ->
     exists s, session res = Some s /\ s_ens s = None).
Proof.
  intros Ht. split.
  - intros resolver.
    rewrite (login_unfold w), (login_unfold (with_resolver resolver w)).
    unfold joined, ensPromise. rewrite Ht. reflexivity.
  - intros res H.
    apply login_normal_inv in H as (m & resp & ens & a & _ & Hj & _ & _ & _ & ->).
    apply joined_normal_inv in Hj as [_ He].
    unfold ensSettled, ensPromise in He. rewrite Ht in He.
    injection He as <-. eexists. split; reflexivity.
Qed.

(** X2, witness: a valid login of [alice] with [resolveEns = false], in
    a world whose resolver is down. *)
Lemma login_without_lookup_witness :
  (forall resolver,
     login (with_resolver resolver (Sample.world Sample.resolving Sample.ens_down))
       Sample.server (Sample.input Sample.alice "abc123") "signed-by-alice"
       false (ResolveFlag false) "abc123"
     = login (Sample.world Sample.resolving Sample.ens_down)
         Sample.server (Sample.input Sample.alice "abc123") "signed-by-alice"
         false (ResolveFlag false) "abc123")
  /\
  (forall res,
     completion
       (login (Sample.world Sample.resolving Sample.ens_down)
          Sample.server (Sample.input Sample.alice "abc123") "signed-by-alice"
          false (ResolveFlag false) "abc123") = Normal res ->
     exists s, session res = Some s /\ s_ens s = None).
Proof.
  apply (login_without_lookup
           (Sample.world Sample.resolving Sample.ens_down) Sample.server
           (Sample.input Sample.alice "abc123") "signed-by-alice" false
           (ResolveFlag false) "abc123").
  reflexivity.
Defined.

(** X3.  With [daoLogin = false] the fallback verifier is not handed to
    the verifier ([verificationFallback] is [undefined]): [login] runs
    the same whatever [SiweGnosisVerify] is. *)
Theorem login_without_daoLogin_ignores_fallback (w : World) (this : SSXServer)
    (g : FallbackVerifier) (siwe : SiweInput) (signature : Signature)
    (r : ResolveEnsArg) (expected : string) :
  login (with_fallback g w) this siwe signature false r expected
  = login w this siwe signature false r expected.
Proof.
  rewrite (login_unfold w), (login_unfold (with_fallback g w)). reflexivity.
Qed.

(** X4.  A listener of [LOGIN] that throws makes [login] throw its
    error, also when the verification succeeded; the audit event has
    then already been handed to [log], and nothing is written to the
    console. *)
Theorem login_listener_throws_after_audit (w : World) (this : SSXServer)
    (siwe : SiweInput) (signature : Signature) (daoLogin : bool)
    (r : ResolveEnsArg) (expected : string) (m : SiweMessage)
    (resp : SiweResponse) (ens : option SSXEnsData) (a : Address)
    (e : Thrown) :
  SiweMessage_new w siwe = Normal m ->
  verifyPromise w this m signature daoLogin expected = Normal resp ->
  ensSettled w this m r = Normal ens ->
  recomputed w (r_data resp) signature = Normal a ->
  listeners this LOGIN (loginEvent siwe signature daoLogin (r_data resp) a)
    = Some e ->
  login w this siwe signature daoLogin r expected
  = ([LogCall (loginEvent siwe signature daoLogin (r_data resp) a);
      EmitCall LOGIN (loginEvent siwe signature daoLogin (r_data resp) a)],
     Abrupt e).
Proof.
  intros Hm Hv He Hr Hl.
  rewrite login_unfold, Hm, (joined_verified _ _ _ _ _ _ _ _ Hv), He, Hr.
  cbn. now rewrite Hl.
Qed.

(** X4, witness: a valid login of [alice] on a server with a listener
    that throws. *)
Lemma login_listener_throws_after_audit_witness :
  login (Sample.world Sample.resolving Sample.ens_up)
    {| provider := NoProvider; apiKey := None;
       listeners := fun _ _ => Some (ThrownError "listener failed") |}
    (Sample.input Sample.alice "abc123") "signed-by-alice" false
    (ResolveFlag false) "abc123"
  = ([LogCall (loginEvent (Sample.input Sample.alice "abc123")
                 "signed-by-alice" false
                 (Sample.message Sample.alice "abc123") Sample.alice);
      EmitCall LOGIN (loginEvent (Sample.input Sample.alice "abc123")
                        "signed-by-alice" false
                        (Sample.message Sample.alice "abc123") Sample.alice)],
     Abrupt (ThrownError "listener failed")).
Proof.
  apply (login_listener_throws_after_audit
           (Sample.world Sample.resolving Sample.ens_up)
           {| provider := NoProvider; apiKey := None;
              listeners := fun _ _ => Some (ThrownError "listener failed") |}
           (Sample.input Sample.alice "abc123") "signed-by-alice" false
           (ResolveFlag false) "abc123"
           (Sample.message Sample.alice "abc123")
           (verified (Sample.message Sample.alice "abc123")) None Sample.alice);
    reflexivity.
Defined.

(** X5.  Whatever the inputs and the world, one run of [login] hands at
    most one event to [log], and the events it emits are exactly the
    events it logged, each under the type [LOGIN]. *)
Theorem login_emits_what_it_logs (w : World) (this : SSXServer)
    (siwe : SiweInput) (signature : Signature) (daoLogin : bool)
    (r : ResolveEnsArg) (expected : string) :
  length (audit_events
            (effects (login w this siwe signature daoLogin r expected))) <= 1
  /\
  emitted_events (effects (login w this siwe signature daoLogin r expected))
  = map (fun ev => (LOGIN, ev))
      (audit_events (effects (login w this siwe signature daoLogin r expected))).
Proof.
  rewrite login_unfold.
  destruct (SiweMessage_new w siwe) as [m | e0]; [| cbn; split; [lia | reflexivity]].
  destruct (joined w this m signature daoLogin r expected) as [[resp ens] | e1];
    [| cbn; split; [lia | reflexivity]].
  destruct (recomputed w (r_data resp) signature) as [a | e2];
    cbn; split; (lia || reflexivity).
Qed.

(** ** The [userId] of the audit event *)

Lemma digits_no_colon (d : Decimal.uint) :
  no_colon (NilEmpty.string_of_uint d) = true.
Proof. induction d; cbn; auto. Qed.

Lemma number_toString_no_colon (n : Z) : no_colon (number_toString n) = true.
Proof.
  unfold number_toString.
  destruct (Z.to_int n) as [d | d]; destruct d; cbn;
    auto using digits_no_colon.
Qed.

Lemma to_int_proper (n : Z) :
  Z.to_int n <> Decimal.Pos Decimal.Nil /\ Z.to_int n <> Decimal.Neg Decimal.Nil.
Proof.
  destruct n as [| p | p]; cbn; split; try discriminate;
    intros H; injection H as H; now apply Unsigned.to_uint_nonnil in H.
Qed.

(** The decimal text of a number determines the number. *)
Lemma number_toString_inj (a b : Z) :
  number_toString a = number_toString b -> a = b.
Proof.
  unfold number_toString. intros H.
  apply DecimalZ.to_int_inj.
  destruct (to_int_proper a) as [Ha1 Ha2], (to_int_proper b) as [Hb1 Hb2].
  pose proof (NilZero.isi _ Ha1 Ha2) as Ia.
  pose proof (NilZero.isi _ Hb1 Hb2) as Ib.
  rewrite H in Ia. rewrite Ia in Ib. now injection Ib.
Qed.

(** Two texts without colon, each followed by a colon and a rest, are
    equal only part by part. *)
Lemma split_at_colon (s1 : string) : forall (s2 a1 a2 : string),
  no_colon s1 = true -> no_colon s2 = true ->
  (s1 ++ ":" ++ a1 = s2 ++ ":" ++ a2)%string -> s1 = s2 /\ a1 = a2.
Proof.
  induction s1 as [| c s1 IH]; intros [| c2 s2] a1 a2 H1 H2 H; cbn in *.
  - injection H as ->. now split.
  - injection H as <- _. discriminate.
  - injection H as -> _. discriminate.
  - injection H as -> H.
    apply andb_true_iff in H1 as [_ H1]. apply andb_true_iff in H2 as [_ H2].
    destruct (IH s2 a1 a2 H1 H2 H) as [-> ->]. now split.
Qed.

(** X6.  The [userId] of the audit event identifies its subject: two
    events that [login] builds with the same [userId] are about the same
    chain and the same address, whatever the address text is (chain ids
    in the range of safe integers). *)
Theorem userId_identifies_subject (siwe1 siwe2 : SiweInput)
    (signature1 signature2 : Signature) (daoLogin1 daoLogin2 : bool)
    (data1 data2 : SiweMessage) (recovered1 recovered2 : Address) :
  safe_integer (chainId data1) ->
  safe_integer (chainId data2) ->
  userId (loginEvent siwe1 signature1 daoLogin1 data1 recovered1)
  = userId (loginEvent siwe2 signature2 daoLogin2 data2 recovered2) ->
  chainId data1 = chainId data2 /\ address data1 = address data2.
Proof.
  intros _ _ H. cbn in H. unfold did_pkh in H.
  cbn in H. injection H as H.
  apply split_at_colon in H as [Hc Ha]; auto using number_toString_no_colon.
  split; [now apply number_toString_inj | exact Ha].
Qed.

(** X6, witness: two logins of [alice] on chain 1, with different nonces
    and signatures. *)
Lemma userId_identifies_subject_witness :
  chainId (Sample.message Sample.alice "abc123")
  = chainId (Sample.message Sample.alice "def456")
  /\ address (Sample.message Sample.alice "abc123")
     = address (Sample.message Sample.alice "def456").
Proof.
  apply (userId_identifies_subject
           (Sample.input Sample.alice "abc123")
           (Sample.input Sample.alice "def456")
           "signed-by-alice" "signed-by-bob" false true
           (Sample.message Sample.alice "abc123")
           (Sample.message Sample.alice "def456")
           Sample.alice Sample.bob);
    reflexivity.
Defined.

(** ** The session configuration *)

(** Reading a spread: the later object first. *)
Lemma obj_get_spread (k : string) (a b : JsObject) :
  obj_get k (spread a b)
  = match obj_get k b with
    | Some v => Some v
    | None => obj_get k a
    end.
Proof.
  unfold spread. induction b as [| [k' v] b IH]; cbn; [reflexivity |].
  destruct (k' =? k); [reflexivity | exact IH].
Qed.

(** [getExpressSessionConfig] case by case. *)
Lemma getExpressSessionConfig_unfold (c : SSXServerConfig) :
  getExpressSessionConfig c
  = match store_of c with
    | Some factory =>
        match factory express_session_module with
        | Normal made =>
            ([], Normal (spread (spread (getDefaultExpressSessionConfig c)
                                   (sessionOptions_of c))
                           [("store", made)]))
        | Abrupt e => ([], Abrupt e)
        end
    | None =>
        ([], Normal (spread (spread (getDefaultExpressSessionConfig c)
                               (sessionOptions_of c)) []))
    end.
Proof.
  unfold getExpressSessionConfig.
  destruct (store_of c) as [factory |]; [| reflexivity].
  cbn. destruct (factory express_session_module); reflexivity.
Qed.

(** What [getExpressSessionConfig] returns: the defaults, then the
    session options, then the store that the factory made. *)
Lemma getExpressSessionConfig_normal_inv (c : SSXServerConfig)
    (options : JsObject) :
  completion (getExpressSessionConfig c) = Normal options ->
  exists storePart,
    options = spread (spread (getDefaultExpressSessionConfig c)
                        (sessionOptions_of c)) storePart /\
    match store_of c with
    | Some factory =>
        exists made,
          factory express_session_module = Normal made /\
          storePart = [("store", made)]
    | None => storePart = []
    end.
Proof.
  rewrite getExpressSessionConfig_unfold.
  destruct (store_of c) as [factory |].
  - destruct (factory express_session_module) as [made | e] eqn:Hf;
      unfold completion; cbn [snd]; intros H; [| discriminate].
    exists [("store", made)]. split; [congruence | eauto].
  - unfold completion; cbn [snd]; intros H.
    exists []. split; [congruence | reflexivity].
Qed.

(** The configuration after the constructor's [Object.assign] reads, under
    [providers], what the argument reads. *)
Lemma merged_providers (p : Platform) (config : SSXServerConfig) :
  metrics_of (Object_assign (_setDefaults p) config) = metrics_of config /\
  rpc_of (Object_assign (_setDefaults p) config) = rpc_of config /\
  sessionConfig_of (Object_assign (_setDefaults p) config)
  = sessionConfig_of config.
Proof.
  unfold metrics_of, rpc_of, sessionConfig_of, Object_assign. cbn.
  destruct (providers config); cbn; repeat split; reflexivity.
Qed.

(** What is known of a constructed server. *)
Lemma new_SSXServer_normal_inv (p : Platform) (config : SSXServerConfig)
    (inst : Instance.t) :
  completion (new_SSXServer p (Some config)) = Normal inst ->
  exists options,
    completion (getExpressSessionConfig (Object_assign (_setDefaults p) config))
      = Normal options /\
    express_session p options = Normal (Instance.session inst) /\
    Instance._config inst = Object_assign (_setDefaults p) config /\
    Authorization (Instance._api inst)
      = ("Bearer " ++ template_string (apiKey_of config))%string /\
    baseURL (Instance._api inst)
      = match service_of (Object_assign (_setDefaults p) config) with
        | Some srv => if srv =? "ssx" then "https://api.ssx.id" else ""
        | None => ""
        end /\
    match rpc_of config with
    | Some r => getProvider p r = Normal (Instance.provider inst)
    | None => Instance.provider inst = NoProvider
    end.
Proof.
  unfold new_SSXServer. rewrite getExpressSessionConfig_unfold.
  set (cfg := Object_assign (_setDefaults p) config).
  destruct (store_of cfg) as [factory |].
  - destruct (factory express_session_module) as [made | e]; [| discriminate].
    cbn. destruct (express_session p _) as [h | e] eqn:Hs; [| discriminate].
    cbn. destruct (rpc_of config) as [r |].
    + cbn. destruct (getProvider p r) as [pr | e] eqn:Hp; [| discriminate].
      cbn. intros H; injection H as <-. eexists. repeat split; eauto.
    + cbn. intros H; injection H as <-. eexists. repeat split; eauto.
  - cbn. destruct (express_session p _) as [h | e] eqn:Hs; [| discriminate].
    cbn. destruct (rpc_of config) as [r |].
    + cbn. destruct (getProvider p r) as [pr | e] eqn:Hp; [| discriminate].
      cbn. intros H; injection H as <-. eexists. repeat split; eauto.
    + cbn. intros H; injection H as <-. eexists. repeat split; eauto.
Qed.

(** X7.  Precedence in the session options: for every key but [store],
    the options of [getExpressSessionConfig] hold the value of
    [sessionOptions] when that object has the key, and the default
    otherwise. *)
Theorem session_options_override_defaults (c : SSXServerConfig)
    (options : JsObject) (k : string) :
  completion (getExpressSessionConfig c) = Normal options ->
  k <> "store" ->
  obj_get k options
  = match obj_get k (sessionOptions_of c) with
    | Some v => Some v
    | None => obj_get k (getDefaultExpressSessionConfig c)
    end.
Proof.
  intros H Hk.
  apply getExpressSessionConfig_normal_inv in H as (storePart & -> & Hs).
  assert (Hn : obj_get k storePart = None).
  { destruct (store_of c) as [factory |].
    - destruct Hs as (made & _ & ->). cbn [obj_get].
      destruct ("store" =? k) eqn:E; [| reflexivity].
      apply String.eqb_eq in E. congruence.
    - now subst. }
  now rewrite !obj_get_spread, Hn.
Qed.

(** X7, witness: the sample configuration renames the session and keeps
    the default [resave]. *)
Lemma session_options_override_defaults_witness :
  obj_get "resave"
    (spread (spread (getDefaultExpressSessionConfig SampleConfig.config)
               (sessionOptions_of SampleConfig.config))
       [("store", JStore "redis")])
  = match obj_get "resave" (sessionOptions_of SampleConfig.config) with
    | Some v => Some v
    | None => obj_get "resave" (getDefaultExpressSessionConfig SampleConfig.config)
    end.
Proof.
  apply (session_options_override_defaults SampleConfig.config
           (spread (spread (getDefaultExpressSessionConfig SampleConfig.config)
                      (sessionOptions_of SampleConfig.config))
              [("store", JStore "redis")])
           "resave").
  - reflexivity.
  - discriminate.
Defined.

(** X8.  A [cookie] object in [sessionOptions] replaces the default
    cookie as a whole: the cookie of the session options is that object,
    so [httpOnly: true] and [secure] are not merged into it. *)
Theorem session_cookie_is_replaced (c : SSXServerConfig)
    (options : JsObject) (props : list (string * JsVal)) :
  completion (getExpressSessionConfig c) = Normal options ->
  obj_get "cookie" (sessionOptions_of c) = Some (JObject props) ->
  obj_prop "cookie" options = JObject props /\
  (obj_get "httpOnly" props = None ->
   exists cookie,
     obj_prop "cookie" options = JObject cookie /\
     obj_prop "httpOnly" cookie = JUndefined).
Proof.
  intros H Hc.
  apply getExpressSessionConfig_normal_inv in H as (storePart & -> & Hs).
  assert (Hp : obj_prop "cookie"
                 (spread (spread (getDefaultExpressSessionConfig c)
                            (sessionOptions_of c)) storePart)
               = JObject props).
  { unfold obj_prop. rewrite !obj_get_spread, Hc.
    destruct (store_of c) as [factory |].
    - now destruct Hs as (made & _ & ->).
    - now subst. }
  split; [exact Hp |].
  intros Hh. exists props. split; [exact Hp |].
  unfold obj_prop. now rewrite Hh.
Qed.

(** X8, witness: the sample configuration gives a cookie with a lifetime
    only. *)
Lemma session_cookie_is_replaced_witness :
  obj_prop "cookie"
    (spread (spread (getDefaultExpressSessionConfig SampleConfig.config)
               (sessionOptions_of SampleConfig.config))
       [("store", JStore "redis")])
  = JObject [("maxAge", JNumber 3600000)]
  /\
  (obj_get "httpOnly" [("maxAge", JNumber 3600000)] = None ->
   exists cookie,
     obj_prop "cookie"
       (spread (spread (getDefaultExpressSessionConfig SampleConfig.config)
                  (sessionOptions_of SampleConfig.config))
          [("store", JStore "redis")])
     = JObject cookie /\
     obj_prop "httpOnly" cookie = JUndefined).
Proof.
  apply (session_cookie_is_replaced SampleConfig.config
           (spread (spread (getDefaultExpressSessionConfig SampleConfig.config)
                      (sessionOptions_of SampleConfig.config))
              [("store", JStore "redis")])
           [("maxAge", JNumber 3600000)]);
    reflexivity.
Defined.

(** X9.  The store of the session options: when the configuration has a
    store factory, it is called with the [express-session] module and
    what it makes is the [store], whatever [sessionOptions.store] is; a
    throw of the factory is thrown by [getExpressSessionConfig]; without
    a factory the [store] is that of [sessionOptions], if any. *)
Theorem session_store_from_factory (c : SSXServerConfig) :
  match store_of c with
  | Some factory =>
      match factory express_session_module with
      | Normal made =>
          exists options,
            getExpressSessionConfig c = ([], Normal options) /\
            obj_get "store" options = Some made
      | Abrupt e => getExpressSessionConfig c = ([], Abrupt e)
      end
  | None =>
      exists options,
        getExpressSessionConfig c = ([], Normal options) /\
        obj_get "store" options = obj_get "store" (sessionOptions_of c)
  end.
Proof.
  rewrite getExpressSessionConfig_unfold.
  destruct (store_of c) as [factory |].
  - destruct (factory express_session_module) as [made | e]; [| reflexivity].
    eexists. split; [reflexivity |]. now rewrite obj_get_spread.
  - eexists. split; [reflexivity |]. rewrite !obj_get_spread. cbn.
    destruct (obj_get "store" (sessionOptions_of c)); reflexivity.
Qed.

(** ** The constructor *)

(** X10.  The cookie that a constructed server hands to
    [express-session], when [sessionOptions] names no cookie: it is
    [httpOnly], and its [secure] flag is [useSecureCookies] of the
    argument when the key is there (also with [undefined]), and
    [NODE_ENV === 'production'] when the key is absent. *)
Theorem constructed_cookie_flags (p : Platform) (config : SSXServerConfig)
    (inst : Instance.t) :
  completion (new_SSXServer p (Some config)) = Normal inst ->
  obj_get "cookie" (sessionOptions_of config) = None ->
  exists options,
    express_session p options = Normal (Instance.session inst) /\
    obj_prop "cookie" options
    = JObject [ ("httpOnly", JBool true);
                ("secure",
                 match useSecureCookies config with
                 | KeyAbsent => JBool (production p)
                 | KeyUndefined => JUndefined
                 | KeyValue b => JBool b
                 end) ].
Proof.
  intros H Hc.
  apply new_SSXServer_normal_inv in H as (options & Ho & Hs & _).
  exists options. split; [exact Hs |].
  assert (Hso : sessionOptions_of (Object_assign (_setDefaults p) config)
                = sessionOptions_of config).
  { unfold sessionOptions_of.
    now destruct (merged_providers p config) as (_ & _ & ->). }
  apply getExpressSessionConfig_normal_inv in Ho as (storePart & -> & Hst).
  assert (Hn : obj_get "cookie" storePart = None).
  { destruct (store_of _) as [factory |].
    - now destruct Hst as (made & _ & ->).
    - now subst. }
  unfold obj_prop. rewrite !obj_get_spread, Hn, Hso, Hc. cbn.
  destruct (useSecureCookies config); reflexivity.
Qed.

(** X10, witness: only a signing key, in production. *)
Lemma constructed_cookie_flags_witness :
  exists options,
    express_session SampleConfig.platform options
      = Normal (Middleware "ssx-session") /\
    obj_prop "cookie" options
    = JObject [ ("httpOnly", JBool true); ("secure", JBool true) ].
Proof.
  apply (constructed_cookie_flags SampleConfig.platform SampleConfig.minimal
           {| Instance._config :=
                Object_assign (_setDefaults SampleConfig.platform)
                  SampleConfig.minimal;
              Instance._api :=
                {| baseURL := ""; Authorization := "Bearer undefined";
                   Content_Type := "application/json" |};
              Instance.provider := NoProvider;
              Instance.session := Middleware "ssx-session" |});
    reflexivity.
Defined.

(** X11.  Without [providers.rpc] the constructor does not call
    [getProvider] (it is the same for every [getProvider]) and leaves
    [provider] [undefined]; the identity lookup of such a server is run
    without a provider. *)
Theorem constructor_without_rpc (p : Platform) (config : SSXServerConfig) :
  rpc_of config = None ->
  (forall g,
     new_SSXServer (with_getProvider g p) (Some config)
     = new_SSXServer p (Some config))
  /\
  (forall inst,
     completion (new_SSXServer p (Some config)) = Normal inst ->
     Instance.provider inst = NoProvider /\
     forall w ls a o,
       resolveEns w (receiver inst ls) a o = ssxResolveEns w NoProvider a o).
Proof.
  intros Hr. split.
  - intros g. unfold new_SSXServer. rewrite Hr. reflexivity.
  - intros inst H.
    apply new_SSXServer_normal_inv in H as (_ & _ & _ & _ & _ & _ & Hp).
    rewrite Hr in Hp. split; [exact Hp |].
    intros w ls a o. unfold resolveEns, receiver. cbn. now rewrite Hp.
Qed.

(** X11, witness: the sample configuration has no RPC provider. *)
Lemma constructor_without_rpc_witness :
  (forall g,
     new_SSXServer (with_getProvider g SampleConfig.platform)
       (Some SampleConfig.config)
     = new_SSXServer SampleConfig.platform (Some SampleConfig.config))
  /\
  (forall inst,
     completion (new_SSXServer SampleConfig.platform (Some SampleConfig.config))
       = Normal inst ->
     Instance.provider inst = NoProvider /\
     forall w ls a o,
       resolveEns w (receiver inst ls) a o = ssxResolveEns w NoProvider a o).
Proof.
  apply (constructor_without_rpc SampleConfig.platform SampleConfig.config).
  reflexivity.
Defined.

(** X12.  The metrics client of a constructed server: its
    [Authorization] header carries the key that [log] hands to [ssxLog]
    (the text [undefined] when there is none), and its base URL is
    [https://api.ssx.id] exactly when the metrics service is [ssx], and
    empty otherwise. *)
Theorem constructed_metrics_client (p : Platform) (config : SSXServerConfig)
    (inst : Instance.t)
    (ls : SSXEventLogTypes -> SSXLogFields -> option Thrown) :
  completion (new_SSXServer p (Some config)) = Normal inst ->
  (forall w data,
     log w (receiver inst ls) data
     = ([LogCall data], ssxLog w (apiKey_of config) data)) /\
  Authorization (Instance._api inst)
  = ("Bearer " ++ template_string (apiKey (receiver inst ls)))%string /\
  (baseURL (Instance._api inst) = "https://api.ssx.id"
   <-> service_of config = Some "ssx") /\
  (baseURL (Instance._api inst) <> "https://api.ssx.id"
   -> baseURL (Instance._api inst) = "").
Proof.
  intros H.
  apply new_SSXServer_normal_inv in H as (_ & _ & _ & Hc & Ha & Hb & _).
  assert (Hk : apiKey (receiver inst ls) = apiKey_of config).
  { cbn. rewrite Hc. unfold apiKey_of.
    now destruct (merged_providers p config) as (-> & _). }
  assert (Hs : service_of (Object_assign (_setDefaults p) config)
               = service_of config).
  { unfold service_of. now destruct (merged_providers p config) as (-> & _). }
  rewrite Hs in Hb.
  split; [| split; [| split]].
  - intros w data. unfold log. now rewrite Hk.
  - now rewrite Hk.
  - rewrite Hb. destruct (service_of config) as [srv |].
    + destruct (srv =? "ssx") eqn:E.
      * apply String.eqb_eq in E. subst. split; reflexivity.
      * apply String.eqb_neq in E. split; [discriminate |].
        intros [= ->]. contradiction.
    + split; discriminate.
  - rewrite Hb. destruct (service_of config) as [srv |]; [| reflexivity].
    destruct (srv =? "ssx"); [contradiction | reflexivity].
Qed.

(** X12, witness: the sample configuration, with metrics on [ssx]. *)
Lemma constructed_metrics_client_witness :
  (forall w data,
     log w (receiver SampleConfig.constructed SampleConfig.no_listeners) data
     = ([LogCall data], ssxLog w (apiKey_of SampleConfig.config) data)) /\
  Authorization (Instance._api SampleConfig.constructed)
  = ("Bearer "
     ++ template_string
          (apiKey (receiver SampleConfig.constructed SampleConfig.no_listeners)))%string /\
  (baseURL (Instance._api SampleConfig.constructed) = "https://api.ssx.id"
   <-> service_of SampleConfig.config = Some "ssx") /\
  (baseURL (Instance._api SampleConfig.constructed) <> "https://api.ssx.id"
   -> baseURL (Instance._api SampleConfig.constructed) = "").
Proof.
  apply (constructed_metrics_client SampleConfig.platform SampleConfig.config
           SampleConfig.constructed SampleConfig.no_listeners).
  reflexivity.
Defined.
